(** * CredTech dashboard: score classification and selection coordinator

    A shallow embedding of the dashboard's logic:
    - [CreditScoreDisplay] (getScoreGrade, getRiskLevel, getScoreColor),
    - [App] (the two [useState] cells and [handleCompanySelect]),
    - the credit score calculator, whose module is imported by [App] but is
      not part of the sources at hand. *)

From Stdlib Require Import QArith Qminmax Lqa.
From Stdlib Require Import List String Bool ZArith Lia.
Import ListNotations.

Local Open Scope Q_scope.

(** ** JavaScript numbers

    Every finite double is a rational, and comparing two doubles involves no
    rounding, so the comparisons of the display component are modelled
    exactly on rationals extended with the three special values. *)

Inductive number : Type :=
| NaN : number
| NegInfinity : number
| PosInfinity : number
| Fin : Q -> number.

(** [a >= b] on numbers: false as soon as one side is NaN. *)
Definition js_ge (a b : number) : bool :=
  match a, b with
  | NaN, _ | _, NaN => false
  | PosInfinity, _ => true
  | _, NegInfinity => true
  | NegInfinity, _ => false
  | Fin _, PosInfinity => false
  | Fin x, Fin y => Qle_bool y x
  end.

(** [a < b] on numbers: false as soon as one side is NaN. *)
Definition js_lt (a b : number) : bool :=
  match a, b with
  | NaN, _ | _, NaN => false
  | _, NegInfinity => false
  | NegInfinity, _ => true
  | PosInfinity, _ => false
  | Fin _, PosInfinity => true
  | Fin x, Fin y => negb (Qle_bool y x)
  end.

(** Numeric literal of the source. *)
Definition lit (z : Z) : number := Fin (inject_Z z).

(** ** CreditScoreDisplay *)

Module CreditScoreDisplay.

Local Open Scope string_scope.

Inductive Icon : Type := TrendingUp | Minus | TrendingDown.

Record Risk : Type := mkRisk { level : string; icon : Icon }.

Definition getScoreColor (score : number) : string :=
  if js_ge score (lit 80) then "#10b981"
  else if js_ge score (lit 60) then "#f59e0b"
  else if js_ge score (lit 40) then "#f97316"
  else "#ef4444".

Definition getScoreGrade (score : number) : string :=
  if js_ge score (lit 90) then "AAA"
  else if js_ge score (lit 80) then "AA"
  else if js_ge score (lit 70) then "A"
  else if js_ge score (lit 60) then "BBB"
  else if js_ge score (lit 50) then "BB"
  else if js_ge score (lit 40) then "B"
  else "CCC".

Definition getRiskLevel (score : number) : Risk :=
  if js_ge score (lit 80) then mkRisk "Low Risk" TrendingUp
  else if js_ge score (lit 60) then mkRisk "Medium Risk" Minus
  else mkRisk "High Risk" TrendingDown.

End CreditScoreDisplay.

(** ** Company records *)

Record HistoricalPoint : Type := mkPoint {
  year : Z;
  point_revenue : Q
}.

Record Company : Type := mkCompany {
  ticker : string;
  name : string;
  revenue : Q;
  netIncome : Q;
  totalAssets : Q;
  totalDebt : Q;
  currentRatio : Q;
  debtRatio : Q;
  roe : Q;
  roa : Q;
  historicalData : list HistoricalPoint
}.

(** Records that differ from [c] in one ratio field only. *)
Definition with_currentRatio (c : Company) (v : Q) : Company :=
  mkCompany (ticker c) (name c) (revenue c) (netIncome c) (totalAssets c)
            (totalDebt c) v (debtRatio c) (roe c) (roa c) (historicalData c).

Definition with_debtRatio (c : Company) (v : Q) : Company :=
  mkCompany (ticker c) (name c) (revenue c) (netIncome c) (totalAssets c)
            (totalDebt c) (currentRatio c) v (roe c) (roa c) (historicalData c).

Definition with_roe (c : Company) (v : Q) : Company :=
  mkCompany (ticker c) (name c) (revenue c) (netIncome c) (totalAssets c)
            (totalDebt c) (currentRatio c) (debtRatio c) v (roa c) (historicalData c).

Definition with_roa (c : Company) (v : Q) : Company :=
  mkCompany (ticker c) (name c) (revenue c) (netIncome c) (totalAssets c)
            (totalDebt c) (currentRatio c) (debtRatio c) (roe c) v (historicalData c).

(** ** App: the selection coordinator

    The component owns two [useState] cells, both initialised to [null].
    An event handler is a computation over these cells: the setters replace
    one cell each, and the updates of one handler run take effect together
    before the next event is handled. *)

Module App.

Record State : Type := mkState {
  selectedCompany : option Company;
  creditScore : option number
}.

(** [useState(null)] for both cells. *)
Definition initial : State := mkState None None.

Definition Handler (A : Type) : Type := State -> A * State.

Definition ret {A : Type} (a : A) : Handler A := fun st => (a, st).

Definition bind {A B : Type} (m : Handler A) (k : A -> Handler B) : Handler B :=
  fun st => let (a, st') := m st in k a st'.

Notation "x <- m ;; k" := (bind m (fun x => k))
  (at level 61, m at next level, right associativity).
Notation "m ;; k" := (bind m (fun _ => k))
  (at level 61, right associativity).

Definition setSelectedCompany (v : option Company) : Handler unit :=
  fun st => (tt, mkState v (creditScore st)).

Definition setCreditScore (v : option number) : Handler unit :=
  fun st => (tt, mkState (selectedCompany st) v).

(** State after running a handler. *)
Definition exec {A : Type} (m : Handler A) (st : State) : State := snd (m st).

Section Coordinator.

(** The two imports of [App] that are not among the sources. *)
Variable companies : list Company.
Variable calculateCreditScore : Company -> number.

(** The call [calculateCreditScore(company)] made by the handler. *)
Definition callCalculator (company : Company) : Handler number :=
  ret (calculateCreditScore company).

Definition handleCompanySelect (t : string) : Handler unit :=
  let company := find (fun c => String.eqb (ticker c) t) companies in
  match company with
  | Some company =>
      setSelectedCompany (Some company) ;;
      score <- callCalculator company ;;
      setCreditScore (Some score)
  | None => ret tt
  end.

(** One selection event. *)
Definition select (st : State) (t : string) : State :=
  exec (handleCompanySelect t) st.

(** A sequence of selection events, oldest first. *)
Definition run (events : list string) (st : State) : State :=
  fold_left select events st.

(** States the coordinator can be in after some sequence of events. *)
Inductive reachable : State -> Prop :=
| reachable_initial : reachable initial
| reachable_select st t : reachable st -> reachable (select st t).

(** The "selected" shape of the coordinator state. *)
Definition selected_with (c : Company) : State :=
  mkState (Some c) (Some (calculateCreditScore c)).

End Coordinator.

End App.

(** ** Credit score calculator *)

Module CreditScoreCalculator.

(** Weights of the four ratio fields. *)
Record Weights : Type := mkWeights {
  w_currentRatio : Q;
  w_debtRatio : Q;
  w_roe : Q;
  w_roa : Q
}.

(** Weights whose signs reward liquidity and returns and penalise debt. *)
Definition monotone_weights (w : Weights) : bool :=
  Qle_bool 0 (w_currentRatio w) && Qle_bool (w_debtRatio w) 0
  && Qle_bool 0 (w_roe w) && Qle_bool 0 (w_roa w).

Definition weighted (w : Weights) (c : Company) : Q :=
  w_currentRatio w * currentRatio c + w_debtRatio w * debtRatio c
  + w_roe w * roe c + w_roa w * roa c.

(** [Math.min(100, Math.max(0, x))] *)
Definition clamp (x : Q) : Q := Qmin 100 (Qmax 0 x).

(** Modelled from the spec: the module [utils/creditScoreCalculator] that
    [App] imports is not among the sources.  The specification describes
    it as a weighted combination of the four ratio fields, clamped to
    [0, 100], and leaves the weights to the implementer; they are a
    parameter here. *)
Definition calculateCreditScore (w : Weights) (c : Company) : number :=
  Fin (clamp (weighted w c)).

End CreditScoreCalculator.

(** ** Sample data *)

Module Sample.

Local Open Scope string_scope.

(** Modelled from the spec: the module [data/mockData] is not among the
    sources; the specification names ticker AAPL with a revenue of
    100,000,000 and the fields of a record.  The remaining figures are
    sample values. *)
Definition aapl : Company :=
  mkCompany "AAPL" "Apple Inc." (100000000#1) (25000000#1) (350000000#1)
            (120000000#1) (3#2) (7#20) (1#4) (3#20)
            [mkPoint 2021 (80000000#1); mkPoint 2022 (90000000#1);
             mkPoint 2023 (100000000#1)].

Definition msft : Company :=
  mkCompany "MSFT" "Microsoft Corporation" (90000000#1) (30000000#1)
            (300000000#1) (60000000#1) (2#1) (1#5) (2#5) (1#5)
            [mkPoint 2021 (70000000#1); mkPoint 2022 (80000000#1);
             mkPoint 2023 (90000000#1)].

Definition companies : list Company := [aapl; msft].

Definition weights : CreditScoreCalculator.Weights :=
  CreditScoreCalculator.mkWeights 20 (-50) 100 100.

Definition score (c : Company) : number :=
  CreditScoreCalculator.calculateCreditScore weights c.

End Sample.

(** ** CompanySelector

    One button per company.  A button carries its React key, the two style
    properties that depend on the selection, its two text labels and its
    click handler, which passes the company's ticker to the
    [onCompanySelect] prop. *)

Module CompanySelector.

Local Open Scope string_scope.

Record Style : Type := mkStyle { border : string; background : string }.

Record Button (H : Type) : Type := mkButton {
  key : string;
  onClick : H;
  style : Style;
  tickerLabel : string;
  nameLabel : string
}.

Arguments mkButton {H} _ _ _ _ _.
Arguments key {H} _.
Arguments onClick {H} _.
Arguments style {H} _.
Arguments tickerLabel {H} _.
Arguments nameLabel {H} _.

(** [selectedCompany?.ticker === company.ticker]: with no selection the
    left side is [undefined], which equals no string. *)
Definition isSelected (selectedCompany : option Company) (company : Company) : bool :=
  match selectedCompany with
  | Some s => String.eqb (ticker s) (ticker company)
  | None => false
  end.

Definition buttonStyle (selectedCompany : option Company) (company : Company) : Style :=
  mkStyle
    (if isSelected selectedCompany company
     then "2px solid #3b82f6" else "2px solid #e5e7eb")
    (if isSelected selectedCompany company then "#eff6ff" else "white").

(** The body of [companies.map]. *)
Definition companyButton {H : Type} (selectedCompany : option Company)
    (onCompanySelect : string -> H) (company : Company) : Button H :=
  mkButton (ticker company) (onCompanySelect (ticker company))
           (buttonStyle selectedCompany company) (ticker company) (name company).

Definition CompanySelector {H : Type} (companies : list Company)
    (selectedCompany : option Company) (onCompanySelect : string -> H)
    : list (Button H) :=
  map (companyButton selectedCompany onCompanySelect) companies.

(** A button drawn with the blue border of the current selection. *)
Definition highlighted {H : Type} (b : Button H) : bool :=
  String.eqb (border (style b)) "2px solid #3b82f6".

End CompanySelector.

(** ** App: what the component returns

    The selector is always rendered, with the company list, the selected
    company and the handler as props; the dashboard grid is rendered only
    when a company is selected, and hands the selected company to both the
    score display and the charts, and the score cell to the score display. *)

Module AppView.

Record Dashboard : Type := mkDashboard {
  display_company : Company;
  display_creditScore : option number;
  charts_company : Company
}.

Record View : Type := mkView {
  selector : list (CompanySelector.Button (App.Handler unit));
  dashboard : option Dashboard
}.

Section Render.

Variable companies : list Company.
Variable calculateCreditScore : Company -> number.

Definition render (st : App.State) : View :=
  mkView
    (CompanySelector.CompanySelector companies (App.selectedCompany st)
       (App.handleCompanySelect companies calculateCreditScore))
    (match App.selectedCompany st with
     | Some c => Some (mkDashboard c (App.creditScore st) c)
     | None => None
     end).

(** Clicking a button runs its handler on the current state. *)
Definition click (b : CompanySelector.Button (App.Handler unit))
    (st : App.State) : App.State :=
  App.exec (CompanySelector.onClick b) st.

End Render.

End AppView.

(** * Properties *)

(** ** Comparisons *)

(** On anything but NaN, [<] is the negation of [>=]. *)
Lemma js_lt_negb_ge (s : number) (z : Z) :
  s <> NaN -> js_lt s (lit z) = negb (js_ge s (lit z)).
Proof. destruct s; simpl; congruence. Qed.

Lemma number_NaN_dec (s : number) : {s = NaN} + {s <> NaN}.
Proof. destruct s; [left; reflexivity | right; discriminate ..]. Qed.

(** A score that reaches a threshold reaches every lower one. *)
Lemma js_ge_lower (s : number) (a b : Z) :
  (b <= a)%Z -> js_ge s (lit a) = true -> js_ge s (lit b) = true.
Proof.
  intros Hab. destruct s as [| | |q]; simpl; try congruence.
  intro H. apply Qle_bool_iff in H. apply Qle_bool_iff.
  apply Qle_trans with (inject_Z a); [|exact H].
  rewrite <- Zle_Qle. exact Hab.
Qed.

(** Turns the boolean threshold tests in the context into order facts. *)
Ltac thresholds :=
  repeat match goal with
  | H : js_ge _ (lit ?a) = true |- _ =>
      match goal with
      | _ : js_ge _ (lit ?b) = false |- _ =>
          let L := fresh in
          assert (L : (b <= a)%Z) by lia;
          rewrite (js_ge_lower _ a b L H) in *; discriminate
      end
  end.

Section Classification.

Import CreditScoreDisplay.
Local Open Scope string_scope.

(** C1: [getScoreGrade] follows the threshold table: "AAA" from 90 up,
    "AA" on [80, 90), "A" on [70, 80), "BBB" on [60, 70), "BB" on
    [50, 60), "B" on [40, 50), and "CCC" for every score in none of these
    bands. *)
Theorem getScoreGrade_table (s : number) :
  (js_ge s (lit 90) = true -> getScoreGrade s = "AAA") /\
  (js_ge s (lit 80) = true -> js_lt s (lit 90) = true -> getScoreGrade s = "AA") /\
  (js_ge s (lit 70) = true -> js_lt s (lit 80) = true -> getScoreGrade s = "A") /\
  (js_ge s (lit 60) = true -> js_lt s (lit 70) = true -> getScoreGrade s = "BBB") /\
  (js_ge s (lit 50) = true -> js_lt s (lit 60) = true -> getScoreGrade s = "BB") /\
  (js_ge s (lit 40) = true -> js_lt s (lit 50) = true -> getScoreGrade s = "B") /\
  (js_ge s (lit 90) = false ->
   js_ge s (lit 80) && js_lt s (lit 90) = false ->
   js_ge s (lit 70) && js_lt s (lit 80) = false ->
   js_ge s (lit 60) && js_lt s (lit 70) = false ->
   js_ge s (lit 50) && js_lt s (lit 60) = false ->
   js_ge s (lit 40) && js_lt s (lit 50) = false ->
   getScoreGrade s = "CCC").
Proof.
  destruct (number_NaN_dec s) as [->|N].
  { repeat split; intros; try reflexivity; discriminate. }
  rewrite !(js_lt_negb_ge s _ N). unfold getScoreGrade.
  destruct (js_ge s (lit 90)) eqn:G90;
  destruct (js_ge s (lit 80)) eqn:G80;
  destruct (js_ge s (lit 70)) eqn:G70;
  destruct (js_ge s (lit 60)) eqn:G60;
  destruct (js_ge s (lit 50)) eqn:G50;
  destruct (js_ge s (lit 40)) eqn:G40;
    simpl; repeat split; intros; try reflexivity; try discriminate;
    thresholds.
Qed.

(** The table of C1 at its boundary scores 90 and 89. *)
Lemma getScoreGrade_table_witness :
  getScoreGrade (lit 90) = "AAA" /\ getScoreGrade (lit 89) = "AA".
Proof.
  split.
  - apply (proj1 (getScoreGrade_table (lit 90))). reflexivity.
  - apply (proj1 (proj2 (getScoreGrade_table (lit 89)))); reflexivity.
Defined.

(** C5: [getRiskLevel] follows the risk bands: "Low Risk" from 80 up,
    "Medium Risk" on [60, 80), and "High Risk" for every other score. *)
Theorem getRiskLevel_bands (s : number) :
  (js_ge s (lit 80) = true -> level (getRiskLevel s) = "Low Risk") /\
  (js_ge s (lit 60) = true -> js_lt s (lit 80) = true ->
   level (getRiskLevel s) = "Medium Risk") /\
  (js_ge s (lit 80) = false ->
   js_ge s (lit 60) && js_lt s (lit 80) = false ->
   level (getRiskLevel s) = "High Risk").
Proof.
  destruct (number_NaN_dec s) as [->|N].
  { repeat split; intros; try reflexivity; discriminate. }
  rewrite !(js_lt_negb_ge s _ N). unfold getRiskLevel.
  destruct (js_ge s (lit 80)) eqn:G80;
  destruct (js_ge s (lit 60)) eqn:G60;
    simpl; repeat split; intros; try reflexivity; try discriminate;
    thresholds.
Qed.

(** The bands of C5 at scores 80, 79 and 59. *)
Lemma getRiskLevel_bands_witness :
  level (getRiskLevel (lit 80)) = "Low Risk" /\
  level (getRiskLevel (lit 79)) = "Medium Risk" /\
  level (getRiskLevel (lit 59)) = "High Risk".
Proof.
  split; [|split].
  - apply (proj1 (getRiskLevel_bands (lit 80))). reflexivity.
  - apply (proj1 (proj2 (getRiskLevel_bands (lit 79)))); reflexivity.
  - apply (proj2 (proj2 (getRiskLevel_bands (lit 59)))); reflexivity.
Defined.

(** C10: the risk level and the grade of a score agree: "Low Risk"
    exactly for grades "AAA" and "AA", "Medium Risk" exactly for "A" and
    "BBB", "High Risk" exactly for "BB", "B" and "CCC". *)
Theorem risk_grade_consistent (s : number) :
  (level (getRiskLevel s) = "Low Risk" <->
   getScoreGrade s = "AAA" \/ getScoreGrade s = "AA") /\
  (level (getRiskLevel s) = "Medium Risk" <->
   getScoreGrade s = "A" \/ getScoreGrade s = "BBB") /\
  (level (getRiskLevel s) = "High Risk" <->
   getScoreGrade s = "BB" \/ getScoreGrade s = "B" \/ getScoreGrade s = "CCC").
Proof.
  unfold getRiskLevel, getScoreGrade.
  destruct (js_ge s (lit 90)) eqn:G90;
  destruct (js_ge s (lit 80)) eqn:G80;
  destruct (js_ge s (lit 70)) eqn:G70;
  destruct (js_ge s (lit 60)) eqn:G60;
  destruct (js_ge s (lit 50)) eqn:G50;
  destruct (js_ge s (lit 40)) eqn:G40;
    thresholds; simpl;
    repeat split; intros; try discriminate; auto;
    repeat match goal with
    | H : _ \/ _ |- _ => destruct H
    end; discriminate.
Qed.

End Classification.

(** ** Selection coordinator *)

Section CoordinatorProperties.

Import App.

Variable companies : list Company.
Variable calculateCreditScore : Company -> number.

Let lookup (t : string) : option Company :=
  find (fun c => String.eqb (ticker c) t) companies.

Let select := App.select companies calculateCreditScore.
Let selected_with := App.selected_with calculateCreditScore.

(** The lookup fails exactly on tickers that no record carries. *)
Lemma lookup_None (t : string) :
  lookup t = None <-> ~ In t (map ticker companies).
Proof.
  unfold lookup. induction companies as [|c cs IH]; simpl.
  - tauto.
  - destruct (String.eqb_spec (ticker c) t) as [E|E].
    + split; [discriminate | intros H; exfalso; apply H; left; exact E].
    + rewrite IH. tauto.
Qed.

(** A successful lookup returns a record of the list with that ticker. *)
Lemma lookup_Some (t : string) (c : Company) :
  lookup t = Some c -> In c companies /\ ticker c = t.
Proof.
  unfold lookup. intro H. apply find_some in H. destruct H as [Hin Heq].
  split; [exact Hin | apply String.eqb_eq; exact Heq].
Qed.

Lemma lookup_present (t : string) :
  In t (map ticker companies) -> exists c, lookup t = Some c.
Proof.
  intro Hin. destruct (lookup t) as [c|] eqn:E.
  - exists c. reflexivity.
  - apply lookup_None in E. contradiction.
Qed.

(** With unique tickers the lookup returns the record itself. *)
Lemma lookup_unique (c : Company) :
  NoDup (map ticker companies) -> In c companies -> lookup (ticker c) = Some c.
Proof.
  unfold lookup. induction companies as [|d ds IH]; simpl; intros ND Hin.
  - contradiction.
  - inversion ND as [|? ? Hnotin ND']; subst.
    destruct (String.eqb_spec (ticker d) (ticker c)) as [E|E].
    + destruct Hin as [->|Hin]; [reflexivity|].
      exfalso. apply Hnotin. rewrite E. apply in_map. exact Hin.
    + destruct Hin as [->|Hin]; [congruence|]. apply IH; assumption.
Qed.

Lemma handle_found (t : string) (c : Company) (st : State) :
  lookup t = Some c ->
  handleCompanySelect companies calculateCreditScore t st = (tt, selected_with c).
Proof.
  unfold lookup, handleCompanySelect. intros ->. reflexivity.
Qed.

Lemma handle_not_found (t : string) (st : State) :
  lookup t = None ->
  handleCompanySelect companies calculateCreditScore t st = (tt, st).
Proof.
  unfold lookup, handleCompanySelect. intros ->. reflexivity.
Qed.

Lemma select_found (t : string) (c : Company) (st : State) :
  lookup t = Some c -> select st t = selected_with c.
Proof.
  intro H. unfold select, App.select, exec. rewrite (handle_found t c st H).
  reflexivity.
Qed.

Lemma select_not_found (t : string) (st : State) :
  lookup t = None -> select st t = st.
Proof.
  intro H. unfold select, App.select, exec. rewrite (handle_not_found t st H).
  reflexivity.
Qed.

(** C2: selecting a ticker that no record of the list carries is a no-op:
    the handler returns normally and leaves both the selected company and
    the credit score as they were. *)
Theorem select_absent_noop (st : State) (t : string) :
  ~ In t (map ticker companies) ->
  handleCompanySelect companies calculateCreditScore t st = (tt, st) /\
  selectedCompany (select st t) = selectedCompany st /\
  creditScore (select st t) = creditScore st.
Proof.
  intro Habs. apply lookup_None in Habs.
  rewrite (select_not_found t st Habs).
  split; [apply handle_not_found; exact Habs | split; reflexivity].
Qed.

(** C6: selecting a ticker carried by a record of the list moves the
    coordinator to the "selected" state of a record of the list with that
    ticker: the selected company is that record, the credit score is the
    calculator's result on it, and nothing of the prior state remains. *)
Theorem select_present (t : string) :
  In t (map ticker companies) ->
  exists c, In c companies /\ ticker c = t /\
    forall st, select st t = mkState (Some c) (Some (calculateCreditScore c)).
Proof.
  intro Hin. destruct (lookup_present t Hin) as [c Hc].
  exists c. destruct (lookup_Some t c Hc) as [Hc1 Hc2].
  repeat split; try assumption.
  intro st. apply (select_found t c st Hc).
Qed.

(** When tickers are unique, selecting the ticker of a record selects that
    very record. *)
Lemma select_unique (c : Company) (st : State) :
  NoDup (map ticker companies) -> In c companies ->
  select st (ticker c) = selected_with c.
Proof.
  intros ND Hin. apply select_found. apply lookup_unique; assumption.
Qed.

(** C7: every state reachable from the initial state by selection events
    is either the initial state (no company, no score) or the "selected"
    state of a record of the list, whose score is the calculator's result
    on that record. *)
Theorem reachable_shapes (st : State) :
  reachable companies calculateCreditScore st ->
  st = mkState None None \/
  exists c, In c companies /\
    st = mkState (Some c) (Some (calculateCreditScore c)).
Proof.
  induction 1 as [|st t Hreach IH].
  - left. reflexivity.
  - fold (select st t). destruct (lookup t) as [c|] eqn:E.
    + right. exists c. split; [apply (lookup_Some t c E)|].
      apply (select_found t c st E).
    + rewrite (select_not_found t st E). exact IH.
Qed.

(** Every state produced by a sequence of events is reachable. *)
Lemma run_reachable (events : list string) (st : State) :
  reachable companies calculateCreditScore st ->
  reachable companies calculateCreditScore
            (run companies calculateCreditScore events st).
Proof.
  revert st. induction events as [|t ts IH]; simpl; intros st H.
  - exact H.
  - apply IH. constructor. exact H.
Qed.

(** C9: selecting the same ticker twice in a row gives the same state as
    selecting it once. *)
Theorem select_idempotent (st : State) (t : string) :
  select (select st t) t = select st t.
Proof.
  destruct (lookup t) as [c|] eqn:E.
  - rewrite !(select_found t c _ E). reflexivity.
  - rewrite !(select_not_found t _ E). reflexivity.
Qed.

End CoordinatorProperties.

(** ** Coordinator on the sample data *)

Section CoordinatorOnSample.

Import App.
Local Open Scope string_scope.

(** C2 on the sample list: ticker TSLA is not in it, and selecting it
    while AAPL is selected changes nothing. *)
Lemma select_absent_noop_witness :
  ~ In "TSLA" (map ticker Sample.companies) /\
  handleCompanySelect Sample.companies Sample.score "TSLA"
    (selected_with Sample.score Sample.aapl)
  = (tt, selected_with Sample.score Sample.aapl).
Proof.
  assert (H : ~ In "TSLA" (map ticker Sample.companies)).
  { simpl. intros [E|[E|[]]]; discriminate E. }
  split; [exact H|].
  apply (select_absent_noop Sample.companies Sample.score
           (selected_with Sample.score Sample.aapl) "TSLA" H).
Defined.

(** C6 on the sample list: ticker MSFT is in it and has a record that
    selecting it installs, whatever was selected before. *)
Lemma select_present_witness :
  In "MSFT" (map ticker Sample.companies) /\
  exists c, In c Sample.companies /\ ticker c = "MSFT" /\
    forall st, select Sample.companies Sample.score st "MSFT"
               = mkState (Some c) (Some (Sample.score c)).
Proof.
  assert (H : In "MSFT" (map ticker Sample.companies)).
  { simpl. right. left. reflexivity. }
  split; [exact H|].
  apply (select_present Sample.companies Sample.score "MSFT" H).
Defined.

(** C7 on the sample list: the state after selecting AAPL and then MSFT
    is reachable, hence of one of the two shapes. *)
Lemma reachable_shapes_witness :
  let st := run Sample.companies Sample.score ["AAPL"; "MSFT"] initial in
  reachable Sample.companies Sample.score st /\
  (st = mkState None None \/
   exists c, In c Sample.companies /\
     st = mkState (Some c) (Some (Sample.score c))).
Proof.
  assert (H : reachable Sample.companies Sample.score
                (run Sample.companies Sample.score ["AAPL"; "MSFT"] initial)).
  { simpl. do 2 constructor. constructor. }
  split; [exact H|].
  apply (reachable_shapes Sample.companies Sample.score _ H).
Defined.

End CoordinatorOnSample.

(** ** Credit score calculator *)

Section CalculatorProperties.

Import CreditScoreCalculator.

Lemma clamp_range (x : Q) : 0 <= clamp x /\ clamp x <= 100.
Proof.
  unfold clamp. split.
  - apply Q.min_glb; [discriminate | apply Q.le_max_l].
  - apply Q.le_min_l.
Qed.

Lemma clamp_monotone (x y : Q) : x <= y -> clamp x <= clamp y.
Proof.
  intro H. unfold clamp.
  apply Q.min_le_compat_l. apply Q.max_le_compat_l. exact H.
Qed.

Lemma monotone_weights_signs (w : Weights) :
  monotone_weights w = true ->
  0 <= w_currentRatio w /\ w_debtRatio w <= 0 /\ 0 <= w_roe w /\ 0 <= w_roa w.
Proof.
  unfold monotone_weights. rewrite !andb_true_iff, !Qle_bool_iff. tauto.
Qed.

Lemma js_ge_Fin (x y : Q) : js_ge (Fin x) (Fin y) = true <-> y <= x.
Proof. simpl. apply Qle_bool_iff. Qed.

(** C3: on every company record, whatever its ratio fields (zero and
    negative ones included), the calculator returns a finite number
    between 0 and 100, bounds included. *)
Theorem calculateCreditScore_range (w : Weights) (R : Company) :
  exists q, calculateCreditScore w R = Fin q /\ 0 <= q /\ q <= 100.
Proof.
  exists (clamp (weighted w R)). split; [reflexivity|].
  apply clamp_range.
Qed.

(** The clamp keeps the direction of a weighted combination: when the
    weights have the signs of [monotone_weights], raising the current
    ratio, the return on equity or the return on assets of a record alone
    never lowers the modelled score, and raising its debt ratio alone never
    raises it.  The signs are a condition on the weights, which the
    specification leaves open. *)
Lemma clamped_combination_monotone (w : Weights) (R : Company) (a b : Q) :
  monotone_weights w = true ->
  a <= b ->
  js_ge (calculateCreditScore w (with_currentRatio R b))
        (calculateCreditScore w (with_currentRatio R a)) = true /\
  js_ge (calculateCreditScore w (with_roe R b))
        (calculateCreditScore w (with_roe R a)) = true /\
  js_ge (calculateCreditScore w (with_roa R b))
        (calculateCreditScore w (with_roa R a)) = true /\
  js_ge (calculateCreditScore w (with_debtRatio R a))
        (calculateCreditScore w (with_debtRatio R b)) = true.
Proof.
  intros Hw Hab.
  destruct (monotone_weights_signs w Hw) as (Hc & Hd & He & Ha).
  unfold calculateCreditScore. rewrite !js_ge_Fin.
  repeat split; apply clamp_monotone; unfold weighted; simpl; nra.
Qed.

End CalculatorProperties.

Section CalculatorInputs.

Import CreditScoreCalculator.

(** The modelled score depends on the four ratio fields only. *)
Lemma calculateCreditScore_ratios_only (w : Weights) (R R' : Company) :
  currentRatio R = currentRatio R' -> debtRatio R = debtRatio R' ->
  roe R = roe R' -> roa R = roa R' ->
  calculateCreditScore w R = calculateCreditScore w R'.
Proof.
  intros H1 H2 H3 H4. unfold calculateCreditScore, weighted.
  rewrite H1, H2, H3, H4. reflexivity.
Qed.

End CalculatorInputs.

(** ** Classification: colours, inverse tables, monotonicity *)

(** [>=] is transitive, NaN and the infinities included. *)
Lemma js_ge_trans (c b a : number) :
  js_ge c b = true -> js_ge b a = true -> js_ge c a = true.
Proof.
  destruct c as [| | |x], b as [| | |y], a as [| | |z]; simpl;
    try congruence.
  rewrite !Qle_bool_iff. intros H1 H2. apply Qle_trans with y; assumption.
Qed.

(** Closes a goal made of equivalences between closed facts. *)
Ltac closed_facts :=
  simpl; repeat split; intros;
  repeat match goal with
  | H : _ /\ _ |- _ => destruct H
  | H : _ \/ _ |- _ => destruct H
  end;
  try discriminate; try reflexivity; auto.

Section ClassificationExtras.

Import CreditScoreDisplay.
Local Open Scope string_scope.

(** The colour of a score follows four bands: green from 80 up, yellow on
    [60, 80), orange on [40, 60), red for every other score, and each
    colour is used on its band only. *)
Theorem getScoreColor_bands (s : number) :
  (getScoreColor s = "#10b981" <-> js_ge s (lit 80) = true) /\
  (getScoreColor s = "#f59e0b" <->
   js_ge s (lit 60) = true /\ js_lt s (lit 80) = true) /\
  (getScoreColor s = "#f97316" <->
   js_ge s (lit 40) = true /\ js_lt s (lit 60) = true) /\
  (getScoreColor s = "#ef4444" <-> js_ge s (lit 40) = false).
Proof.
  destruct (number_NaN_dec s) as [->|N]; [closed_facts|].
  rewrite !(js_lt_negb_ge s _ N). unfold getScoreColor.
  destruct (js_ge s (lit 80)) eqn:G80;
  destruct (js_ge s (lit 60)) eqn:G60;
  destruct (js_ge s (lit 40)) eqn:G40;
    thresholds; closed_facts.
Qed.

(** Each grade is given on its band only: a displayed grade determines the
    band the score lies in. *)
Theorem getScoreGrade_inverse (s : number) :
  (getScoreGrade s = "AAA" <-> js_ge s (lit 90) = true) /\
  (getScoreGrade s = "AA" <->
   js_ge s (lit 80) = true /\ js_lt s (lit 90) = true) /\
  (getScoreGrade s = "A" <->
   js_ge s (lit 70) = true /\ js_lt s (lit 80) = true) /\
  (getScoreGrade s = "BBB" <->
   js_ge s (lit 60) = true /\ js_lt s (lit 70) = true) /\
  (getScoreGrade s = "BB" <->
   js_ge s (lit 50) = true /\ js_lt s (lit 60) = true) /\
  (getScoreGrade s = "B" <->
   js_ge s (lit 40) = true /\ js_lt s (lit 50) = true) /\
  (getScoreGrade s = "CCC" <-> js_ge s (lit 40) = false).
Proof.
  destruct (number_NaN_dec s) as [->|N]; [closed_facts|].
  rewrite !(js_lt_negb_ge s _ N). unfold getScoreGrade.
  destruct (js_ge s (lit 90)) eqn:G90;
  destruct (js_ge s (lit 80)) eqn:G80;
  destruct (js_ge s (lit 70)) eqn:G70;
  destruct (js_ge s (lit 60)) eqn:G60;
  destruct (js_ge s (lit 50)) eqn:G50;
  destruct (js_ge s (lit 40)) eqn:G40;
    thresholds; closed_facts.
Qed.

(** The grades at or above each threshold. *)
Lemma getScoreGrade_upper (s : number) :
  (js_ge s (lit 90) = true <-> getScoreGrade s = "AAA") /\
  (js_ge s (lit 80) = true <->
   getScoreGrade s = "AAA" \/ getScoreGrade s = "AA") /\
  (js_ge s (lit 70) = true <->
   getScoreGrade s = "AAA" \/ getScoreGrade s = "AA" \/ getScoreGrade s = "A") /\
  (js_ge s (lit 60) = true <->
   getScoreGrade s = "AAA" \/ getScoreGrade s = "AA" \/ getScoreGrade s = "A"
   \/ getScoreGrade s = "BBB") /\
  (js_ge s (lit 50) = true <->
   getScoreGrade s = "AAA" \/ getScoreGrade s = "AA" \/ getScoreGrade s = "A"
   \/ getScoreGrade s = "BBB" \/ getScoreGrade s = "BB") /\
  (js_ge s (lit 40) = true <->
   getScoreGrade s = "AAA" \/ getScoreGrade s = "AA" \/ getScoreGrade s = "A"
   \/ getScoreGrade s = "BBB" \/ getScoreGrade s = "BB" \/ getScoreGrade s = "B") /\
  (js_ge s (lit 40) = false <-> getScoreGrade s = "CCC").
Proof.
  unfold getScoreGrade.
  destruct (js_ge s (lit 90)) eqn:G90;
  destruct (js_ge s (lit 80)) eqn:G80;
  destruct (js_ge s (lit 70)) eqn:G70;
  destruct (js_ge s (lit 60)) eqn:G60;
  destruct (js_ge s (lit 50)) eqn:G50;
  destruct (js_ge s (lit 40)) eqn:G40;
    thresholds; closed_facts; tauto.
Qed.

(** The risk levels at or above each threshold. *)
Lemma getRiskLevel_upper (s : number) :
  (js_ge s (lit 80) = true <-> level (getRiskLevel s) = "Low Risk") /\
  (js_ge s (lit 60) = true <->
   level (getRiskLevel s) = "Low Risk" \/ level (getRiskLevel s) = "Medium Risk").
Proof.
  unfold getRiskLevel.
  destruct (js_ge s (lit 80)) eqn:G80;
  destruct (js_ge s (lit 60)) eqn:G60;
    thresholds; closed_facts; tauto.
Qed.

(** A score at least as high as another never gets a worse grade: if the
    lower score reaches a grade or better, so does the higher one. *)
Theorem getScoreGrade_monotone (s1 s2 : number) :
  js_ge s2 s1 = true ->
  (getScoreGrade s1 = "AAA" -> getScoreGrade s2 = "AAA") /\
  (getScoreGrade s1 = "AAA" \/ getScoreGrade s1 = "AA" ->
   getScoreGrade s2 = "AAA" \/ getScoreGrade s2 = "AA") /\
  (getScoreGrade s1 = "AAA" \/ getScoreGrade s1 = "AA" \/ getScoreGrade s1 = "A" ->
   getScoreGrade s2 = "AAA" \/ getScoreGrade s2 = "AA" \/ getScoreGrade s2 = "A") /\
  (getScoreGrade s1 = "AAA" \/ getScoreGrade s1 = "AA" \/ getScoreGrade s1 = "A"
   \/ getScoreGrade s1 = "BBB" ->
   getScoreGrade s2 = "AAA" \/ getScoreGrade s2 = "AA" \/ getScoreGrade s2 = "A"
   \/ getScoreGrade s2 = "BBB") /\
  (getScoreGrade s1 = "AAA" \/ getScoreGrade s1 = "AA" \/ getScoreGrade s1 = "A"
   \/ getScoreGrade s1 = "BBB" \/ getScoreGrade s1 = "BB" ->
   getScoreGrade s2 = "AAA" \/ getScoreGrade s2 = "AA" \/ getScoreGrade s2 = "A"
   \/ getScoreGrade s2 = "BBB" \/ getScoreGrade s2 = "BB") /\
  (getScoreGrade s2 = "CCC" -> getScoreGrade s1 = "CCC").
Proof.
  intro H.
  destruct (getScoreGrade_upper s1) as (U1 & U2 & U3 & U4 & U5 & U6 & U7).
  destruct (getScoreGrade_upper s2) as (V1 & V2 & V3 & V4 & V5 & V6 & V7).
  repeat split.
  - intro G. apply V1. apply js_ge_trans with s1; [exact H | apply U1; exact G].
  - intro G. apply V2. apply js_ge_trans with s1; [exact H | apply U2; exact G].
  - intro G. apply V3. apply js_ge_trans with s1; [exact H | apply U3; exact G].
  - intro G. apply V4. apply js_ge_trans with s1; [exact H | apply U4; exact G].
  - intro G. apply V5. apply js_ge_trans with s1; [exact H | apply U5; exact G].
  - intro G. apply V7 in G. apply U7.
    destruct (js_ge s1 (lit 40)) eqn:E; [|reflexivity].
    rewrite (js_ge_trans _ _ _ H E) in G. discriminate G.
Qed.

(** Grades of 85 and 95: the higher score keeps "AA or better". *)
Lemma getScoreGrade_monotone_witness :
  js_ge (lit 95) (lit 85) = true /\
  (getScoreGrade (lit 85) = "AAA" \/ getScoreGrade (lit 85) = "AA" ->
   getScoreGrade (lit 95) = "AAA" \/ getScoreGrade (lit 95) = "AA").
Proof.
  assert (H : js_ge (lit 95) (lit 85) = true) by reflexivity.
  split; [exact H|].
  exact (proj1 (proj2 (getScoreGrade_monotone (lit 85) (lit 95) H))).
Defined.

(** A score at least as high as another never gets a worse risk level. *)
Theorem getRiskLevel_monotone (s1 s2 : number) :
  js_ge s2 s1 = true ->
  (level (getRiskLevel s1) = "Low Risk" -> level (getRiskLevel s2) = "Low Risk") /\
  (level (getRiskLevel s1) = "Low Risk" \/ level (getRiskLevel s1) = "Medium Risk" ->
   level (getRiskLevel s2) = "Low Risk" \/ level (getRiskLevel s2) = "Medium Risk") /\
  (level (getRiskLevel s2) = "High Risk" -> level (getRiskLevel s1) = "High Risk").
Proof.
  intro H.
  destruct (getRiskLevel_upper s1) as (U1 & U2).
  destruct (getRiskLevel_upper s2) as (V1 & V2).
  repeat split.
  - intro G. apply V1. apply js_ge_trans with s1; [exact H | apply U1; exact G].
  - intro G. apply V2. apply js_ge_trans with s1; [exact H | apply U2; exact G].
  - intro G. destruct (js_ge s1 (lit 60)) eqn:E.
    + pose proof (js_ge_trans _ _ _ H E) as E2. apply V2 in E2.
      rewrite G in E2. destruct E2; discriminate.
    + unfold getRiskLevel.
      destruct (js_ge s1 (lit 80)) eqn:E8; [thresholds|].
      rewrite E. reflexivity.
Qed.

(** Risk levels of 65 and 85. *)
Lemma getRiskLevel_monotone_witness :
  js_ge (lit 85) (lit 65) = true /\
  (level (getRiskLevel (lit 65)) = "Low Risk"
   \/ level (getRiskLevel (lit 65)) = "Medium Risk" ->
   level (getRiskLevel (lit 85)) = "Low Risk"
   \/ level (getRiskLevel (lit 85)) = "Medium Risk").
Proof.
  assert (H : js_ge (lit 85) (lit 65) = true) by reflexivity.
  split; [exact H|].
  exact (proj1 (proj2 (getRiskLevel_monotone (lit 65) (lit 85) H))).
Defined.

(** The icon of a risk level goes with its label: the rising trend with
    "Low Risk", the flat line with "Medium Risk", the falling trend with
    "High Risk". *)
Theorem getRiskLevel_icon (s : number) :
  (icon (getRiskLevel s) = TrendingUp <-> level (getRiskLevel s) = "Low Risk") /\
  (icon (getRiskLevel s) = Minus <-> level (getRiskLevel s) = "Medium Risk") /\
  (icon (getRiskLevel s) = TrendingDown <-> level (getRiskLevel s) = "High Risk").
Proof.
  unfold getRiskLevel.
  destruct (js_ge s (lit 80)); [closed_facts|].
  destruct (js_ge s (lit 60)); closed_facts.
Qed.

(** The colour of a score agrees with its risk level and its grade: green
    with "Low Risk", yellow with "Medium Risk", orange or red with "High
    Risk"; within the last, orange with grades "BB" and "B" and red with
    "CCC". *)
Theorem color_risk_grade_consistent (s : number) :
  (getScoreColor s = "#10b981" <-> level (getRiskLevel s) = "Low Risk") /\
  (getScoreColor s = "#f59e0b" <-> level (getRiskLevel s) = "Medium Risk") /\
  (getScoreColor s = "#f97316" \/ getScoreColor s = "#ef4444" <->
   level (getRiskLevel s) = "High Risk") /\
  (getScoreColor s = "#f97316" <->
   getScoreGrade s = "BB" \/ getScoreGrade s = "B") /\
  (getScoreColor s = "#ef4444" <-> getScoreGrade s = "CCC").
Proof.
  unfold getScoreColor, getRiskLevel, getScoreGrade.
  destruct (js_ge s (lit 90)) eqn:G90;
  destruct (js_ge s (lit 80)) eqn:G80;
  destruct (js_ge s (lit 70)) eqn:G70;
  destruct (js_ge s (lit 60)) eqn:G60;
  destruct (js_ge s (lit 50)) eqn:G50;
  destruct (js_ge s (lit 40)) eqn:G40;
    thresholds; closed_facts.
Qed.

End ClassificationExtras.

(** ** Coordinator: event sequences and the rendered view *)

Section CoordinatorExtras.

Import App.

Variable companies : list Company.
Variable calculateCreditScore : Company -> number.

Let lookup (t : string) : option Company :=
  find (fun c => String.eqb (ticker c) t) companies.
Let handle := handleCompanySelect companies calculateCreditScore.
Let select := App.select companies calculateCreditScore.
Let run := App.run companies calculateCreditScore.
Let reachable := App.reachable companies calculateCreditScore.
Let selected_with := App.selected_with calculateCreditScore.
Let render := AppView.render companies calculateCreditScore.

(** The two shapes of a reachable state. *)
Lemma reachable_cases (st : State) :
  reachable st ->
  st = initial \/ exists c, In c companies /\ st = selected_with c.
Proof.
  induction 1 as [|st t _ IH].
  - left. reflexivity.
  - destruct (lookup t) as [c|] eqn:E.
    + right. exists c. split.
      * apply (lookup_Some companies t c E).
      * apply (select_found companies calculateCreditScore t c st E).
    + rewrite (select_not_found companies calculateCreditScore t st E).
      exact IH.
Qed.

Lemma run_app (pre post : list string) (st : State) :
  run (pre ++ post) st = run post (run pre st).
Proof. apply fold_left_app. Qed.

(** Events whose tickers no record carries can be dropped from the end of
    any event sequence: the coordinator ends in the same state. *)
Theorem run_trailing_absent (pre rest : list string) (st : State) :
  Forall (fun t => ~ In t (map ticker companies)) rest ->
  run (pre ++ rest) st = run pre st.
Proof.
  intro Habs. rewrite run_app. generalize (run pre st). clear st.
  induction Habs as [|t ts Ht _ IH]; intro st.
  - reflexivity.
  - change (run (t :: ts) st) with (run ts (select st t)).
    apply (proj2 (lookup_None companies calculateCreditScore t)) in Ht.
    assert (E : select st t = st)
      by apply (select_not_found companies calculateCreditScore t st Ht).
    rewrite E. apply IH.
Qed.

(** The last selection wins: after any event sequence that ends with a
    ticker carried by some record, the state is the "selected" state of the
    first record with that ticker, whatever came before. *)
Theorem run_last_selection (pre : list string) (t : string) (c : Company)
    (st : State) :
  find (fun c => String.eqb (ticker c) t) companies = Some c ->
  run (pre ++ [t]) st = mkState (Some c) (Some (calculateCreditScore c)).
Proof.
  intro Hc. rewrite run_app.
  change (run [t] (run pre st)) with (select (run pre st) t).
  apply (select_found companies calculateCreditScore t c _ Hc).
Qed.

(** In every reachable state the dashboard is either absent, and then the
    state is the initial one, or it shows a record of the list: the score
    display and the charts get the same record, and the score display gets
    the calculator's result on it, never [null]. *)
Theorem render_dashboard (st : State) :
  reachable st ->
  match AppView.dashboard (render st) with
  | None => st = initial
  | Some d =>
      In (AppView.display_company d) companies /\
      AppView.charts_company d = AppView.display_company d /\
      AppView.display_creditScore d
      = Some (calculateCreditScore (AppView.display_company d))
  end.
Proof.
  intro Hr. destruct (reachable_cases st Hr) as [->|(c & Hin & ->)]; simpl.
  - reflexivity.
  - repeat split. exact Hin.
Qed.

End CoordinatorExtras.

(** ** CompanySelector and the coordinator *)

Section SelectorExtras.

Import App.
Import CompanySelector.

Variable companies : list Company.
Variable calculateCreditScore : Company -> number.

Let handle := handleCompanySelect companies calculateCreditScore.
Let selected_with := App.selected_with calculateCreditScore.
Let render := AppView.render companies calculateCreditScore.

(** A button is highlighted exactly when its company carries the ticker of
    the selected company. *)
Lemma highlighted_isSelected {H : Type} (sel : option Company)
    (h : string -> H) (c : Company) :
  highlighted (companyButton sel h c) = isSelected sel c.
Proof.
  unfold highlighted, companyButton, buttonStyle. simpl.
  destruct (isSelected sel c); reflexivity.
Qed.

Lemma filter_highlighted {H : Type} (sel : option Company)
    (h : string -> H) (cs : list Company) :
  List.length (filter highlighted (CompanySelector.CompanySelector cs sel h))
  = List.length (filter (isSelected sel) cs).
Proof.
  unfold CompanySelector.CompanySelector.
  induction cs as [|c cs IH]; simpl; [reflexivity|].
  rewrite highlighted_isSelected.
  destruct (isSelected sel c); simpl; rewrite IH; reflexivity.
Qed.

Lemma filter_unselected (cs : list Company) :
  List.length (filter (isSelected None) cs) = 0%nat.
Proof. induction cs as [|c cs IH]; simpl; [reflexivity | exact IH]. Qed.

(** Among records with unique tickers, those sharing the ticker of a listed
    record are that record alone. *)
Lemma filter_ticker_unique (c : Company) (cs : list Company) :
  NoDup (map ticker cs) -> In c cs ->
  List.length (filter (isSelected (Some c)) cs) = 1%nat.
Proof.
  induction cs as [|d ds IH]; simpl; intros ND Hin; [contradiction|].
  inversion ND as [|? ? Hnotin ND']; subst.
  destruct (String.eqb_spec (ticker c) (ticker d)) as [E|E].
  - simpl. f_equal.
    assert (Z : forall l, (forall x, In x l -> ticker x <> ticker c) ->
                List.length (filter (isSelected (Some c)) l) = 0%nat).
    { induction l as [|x l IHl]; simpl; intro Hl; [reflexivity|].
      destruct (String.eqb_spec (ticker c) (ticker x)) as [E'|E'].
      - exfalso. apply (Hl x); [left; reflexivity | symmetry; exact E'].
      - apply IHl. intros y Hy. apply Hl. right. exact Hy. }
    apply Z. intros x Hx Ex. apply Hnotin. rewrite <- E, <- Ex.
    apply in_map. exact Hx.
  - destruct Hin as [->|Hin]; [congruence|]. apply IH; assumption.
Qed.

(** Every button the selector renders can be clicked safely: its click
    finds a record of the list carrying the ticker shown on the button and
    moves the coordinator, from any state, to the "selected" state of that
    record.  The not-found branch of the handler is never taken by a click. *)
Theorem click_rendered_button (st : State)
    (b : Button (Handler unit)) :
  In b (AppView.selector (render st)) ->
  exists c, In c companies /\ ticker c = tickerLabel b /\
    forall st', AppView.click b st'
                = mkState (Some c) (Some (calculateCreditScore c)).
Proof.
  simpl. unfold CompanySelector.CompanySelector. intro Hb.
  apply in_map_iff in Hb. destruct Hb as (d & <- & Hd).
  assert (Hin : In (ticker d) (map ticker companies)) by (apply in_map; exact Hd).
  destruct (lookup_present companies calculateCreditScore (ticker d) Hin) as [c Hc].
  destruct (lookup_Some companies (ticker d) c Hc) as [Hc1 Hc2].
  exists c. repeat split; try assumption.
  intro st'. apply (select_found companies calculateCreditScore _ c st' Hc).
Qed.

(** When tickers are unique, clicking the button of a listed record
    selects that very record, with its score. *)
Theorem click_selects_own_company (sel : option Company) (c : Company)
    (st : State) :
  NoDup (map ticker companies) -> In c companies ->
  AppView.click (companyButton sel handle c) st
  = mkState (Some c) (Some (calculateCreditScore c)).
Proof.
  intros ND Hin.
  apply (select_found companies calculateCreditScore (ticker c) c st).
  apply (lookup_unique companies calculateCreditScore); assumption.
Qed.

(** After the button of a listed record is clicked, the selector draws
    that button highlighted, whatever was selected before. *)
Theorem clicked_button_highlighted (sel : option Company) (c : Company)
    (st : State) :
  In c companies ->
  highlighted
    (companyButton
       (selectedCompany (AppView.click (companyButton sel handle c) st))
       handle c) = true.
Proof.
  intro Hin. rewrite highlighted_isSelected.
  assert (Ht : In (ticker c) (map ticker companies)) by (apply in_map; exact Hin).
  destruct (lookup_present companies calculateCreditScore (ticker c) Ht) as [d Hd].
  destruct (lookup_Some companies (ticker c) d Hd) as [_ Hd2].
  assert (E : AppView.click (companyButton sel handle c) st = selected_with d)
    by apply (select_found companies calculateCreditScore (ticker c) d st Hd).
  rewrite E. simpl. apply String.eqb_eq. exact Hd2.
Qed.

(** When tickers are unique, every reachable state highlights exactly one
    button if a company is selected, and none otherwise. *)
Theorem highlighted_count (st : State) :
  NoDup (map ticker companies) ->
  reachable companies calculateCreditScore st ->
  List.length (filter highlighted (AppView.selector (render st)))
  = match selectedCompany st with Some _ => 1%nat | None => 0%nat end.
Proof.
  intros ND Hr. simpl. rewrite filter_highlighted.
  destruct (reachable_cases companies calculateCreditScore st Hr)
    as [->|(c & Hin & ->)]; simpl.
  - apply filter_unselected.
  - apply filter_ticker_unique; assumption.
Qed.

End SelectorExtras.

(** ** Event sequences and the view on the sample data *)

Section ExtrasOnSample.

Import App.
Import CompanySelector.
Local Open Scope string_scope.

Let handle := handleCompanySelect Sample.companies Sample.score.
Let run := App.run Sample.companies Sample.score.
Let render := AppView.render Sample.companies Sample.score.

Lemma sample_tickers_unique : NoDup (map ticker Sample.companies).
Proof.
  simpl. constructor.
  - simpl. intros [E|[]]. discriminate E.
  - constructor; [intros [] | constructor].
Defined.

Lemma sample_absent :
  Forall (fun t => ~ In t (map ticker Sample.companies)) ["TSLA"; "GOOG"].
Proof.
  constructor; [|constructor; [|constructor]];
    simpl; intros [E|[E|[]]]; discriminate E.
Defined.

(** Selecting AAPL and then two unknown tickers ends where selecting AAPL
    alone does. *)
Lemma run_trailing_absent_witness :
  Forall (fun t => ~ In t (map ticker Sample.companies)) ["TSLA"; "GOOG"] /\
  run (["AAPL"] ++ ["TSLA"; "GOOG"]) initial = run ["AAPL"] initial.
Proof.
  split; [exact sample_absent|].
  apply (run_trailing_absent Sample.companies Sample.score
           ["AAPL"] ["TSLA"; "GOOG"] initial sample_absent).
Defined.

(** AAPL, an unknown ticker, then MSFT: MSFT is selected. *)
Lemma run_last_selection_witness :
  find (fun c => String.eqb (ticker c) "MSFT") Sample.companies
  = Some Sample.msft /\
  run (["AAPL"; "TSLA"] ++ ["MSFT"]) initial
  = mkState (Some Sample.msft) (Some (Sample.score Sample.msft)).
Proof.
  assert (H : find (fun c => String.eqb (ticker c) "MSFT") Sample.companies
              = Some Sample.msft) by reflexivity.
  split; [exact H|].
  apply (run_last_selection Sample.companies Sample.score
           ["AAPL"; "TSLA"] "MSFT" Sample.msft initial H).
Defined.

(** The dashboard after selecting AAPL. *)
Lemma render_dashboard_witness :
  reachable Sample.companies Sample.score (run ["AAPL"] initial) /\
  match AppView.dashboard (render (run ["AAPL"] initial)) with
  | None => run ["AAPL"] initial = initial
  | Some d =>
      In (AppView.display_company d) Sample.companies /\
      AppView.charts_company d = AppView.display_company d /\
      AppView.display_creditScore d
      = Some (Sample.score (AppView.display_company d))
  end.
Proof.
  assert (H : reachable Sample.companies Sample.score (run ["AAPL"] initial)).
  { simpl. constructor. constructor. }
  split; [exact H|].
  apply (render_dashboard Sample.companies Sample.score _ H).
Defined.

(** The MSFT button of the first render. *)
Lemma click_rendered_button_witness :
  In (companyButton None handle Sample.msft) (AppView.selector (render initial)) /\
  exists c, In c Sample.companies /\
    ticker c = tickerLabel (companyButton None handle Sample.msft) /\
    forall st', AppView.click (companyButton None handle Sample.msft) st'
                = mkState (Some c) (Some (Sample.score c)).
Proof.
  assert (H : In (companyButton None handle Sample.msft)
                 (AppView.selector (render initial))).
  { simpl. right. left. reflexivity. }
  split; [exact H|].
  apply (click_rendered_button Sample.companies Sample.score initial _ H).
Defined.

(** Clicking the AAPL button selects the AAPL record. *)
Lemma click_selects_own_company_witness :
  NoDup (map ticker Sample.companies) /\ In Sample.aapl Sample.companies /\
  AppView.click (companyButton None handle Sample.aapl) initial
  = mkState (Some Sample.aapl) (Some (Sample.score Sample.aapl)).
Proof.
  assert (Hin : In Sample.aapl Sample.companies) by (left; reflexivity).
  split; [exact sample_tickers_unique|]. split; [exact Hin|].
  apply (click_selects_own_company Sample.companies Sample.score None
           Sample.aapl initial sample_tickers_unique Hin).
Defined.

(** The MSFT button is highlighted once it has been clicked. *)
Lemma clicked_button_highlighted_witness :
  In Sample.msft Sample.companies /\
  highlighted
    (companyButton
       (selectedCompany
          (AppView.click (companyButton None handle Sample.msft) initial))
       handle Sample.msft) = true.
Proof.
  assert (Hin : In Sample.msft Sample.companies) by (right; left; reflexivity).
  split; [exact Hin|].
  apply (clicked_button_highlighted Sample.companies Sample.score None
           Sample.msft initial Hin).
Defined.

(** One highlighted button after selecting AAPL. *)
Lemma highlighted_count_witness :
  NoDup (map ticker Sample.companies) /\
  reachable Sample.companies Sample.score (run ["AAPL"] initial) /\
  List.length (filter highlighted (AppView.selector (render (run ["AAPL"] initial))))
  = 1%nat.
Proof.
  assert (H : reachable Sample.companies Sample.score (run ["AAPL"] initial)).
  { simpl. constructor. constructor. }
  split; [exact sample_tickers_unique|]. split; [exact H|].
  apply (highlighted_count Sample.companies Sample.score _
           sample_tickers_unique H).
Defined.

End ExtrasOnSample.
